(** * CodeBuild actions for CodePipeline: artifact binding and permissions

    A shallow embedding of
    [packages/@aws-cdk/aws-codebuild/lib/pipeline-actions.ts]:
    the two action constructors ([PipelineBuildAction], [PipelineTestAction]),
    the helpers [setCodeBuildNeededPermissions],
    [handleAdditionalInputOutputArtifacts] and [findOutputArtifact], and the
    two [additionalOutputArtifacts] / [additionalOutputArtifact] query pairs.

    The constructors are imperative: they mutate the action under
    construction, the pipeline role and the pipeline's bucket policy, and they
    may throw.  They are embedded in a state-and-exception monad whose state
    survives a throw, as the mutations of a JavaScript object survive an
    exception raised after them. *)

From stdpp Require Import base option list strings gmap.

(** ** Collaborators: [@aws-cdk/aws-iam] *)

Module iam.

(** A role is a principal known by its identity; two references to the same
    role are the same identity. *)
Record Role := { roleName : string }.

#[global] Instance Role_eq_dec : EqDecision Role.
Proof. solve_decision. Defined.

(** [new iam.PolicyStatement()] followed by the builder calls the source
    uses. *)
Record PolicyStatement := {
  resources : list string;
  actions : list string
}.

#[global] Instance PolicyStatement_eq_dec : EqDecision PolicyStatement.
Proof. solve_decision. Defined.

Definition newPolicyStatement : PolicyStatement :=
  {| resources := []; actions := [] |}.

Definition addResource (arn : string) (s : PolicyStatement) : PolicyStatement :=
  {| resources := resources s ++ [arn]; actions := actions s |}.

Definition addActions (acts : list string) (s : PolicyStatement) : PolicyStatement :=
  {| resources := resources s; actions := actions s ++ acts |}.

End iam.

(** ** Collaborators: [@aws-cdk/aws-codepipeline-api] *)

Module codepipeline.

(** An artifact is a named unit of data together with the action that
    declared it. *)
Record Artifact := { name : string; producer : string }.

#[global] Instance Artifact_eq_dec : EqDecision Artifact.
Proof. solve_decision. Defined.

Record ActionArtifactBounds := {
  minInputs : nat;
  maxInputs : nat;
  minOutputs : nat;
  maxOutputs : nat
}.

Inductive ActionCategory := Build | Test.

Record Pipeline := { role : iam.Role }.

(** [IStage]: the pipeline it belongs to, the artifact the stage supplies
    when an action names no input (the output of the last action of the
    previous stage), and the name it generates for an unnamed output. *)
Record IStage := {
  pipeline : Pipeline;
  upstreamArtifact : Artifact;
  generateOutputArtifactName : string → string
}.

(** The fields of [codepipeline.Action] the source reads or writes. *)
Record Action := {
  actionName : string;
  category : ActionCategory;
  provider : string;
  artifactBounds : ActionArtifactBounds;
  configuration : gmap string string;
  _inputArtifacts : list Artifact;
  _outputArtifacts : list Artifact;
  outputArtifact : option Artifact
}.

Definition with_configuration (c : gmap string string) (a : Action) : Action :=
  {| actionName := actionName a; category := category a; provider := provider a;
     artifactBounds := artifactBounds a; configuration := c;
     _inputArtifacts := _inputArtifacts a; _outputArtifacts := _outputArtifacts a;
     outputArtifact := outputArtifact a |}.

Definition with_inputArtifacts (l : list Artifact) (a : Action) : Action :=
  {| actionName := actionName a; category := category a; provider := provider a;
     artifactBounds := artifactBounds a; configuration := configuration a;
     _inputArtifacts := l; _outputArtifacts := _outputArtifacts a;
     outputArtifact := outputArtifact a |}.

Definition with_outputArtifacts (l : list Artifact) (a : Action) : Action :=
  {| actionName := actionName a; category := category a; provider := provider a;
     artifactBounds := artifactBounds a; configuration := configuration a;
     _inputArtifacts := _inputArtifacts a; _outputArtifacts := l;
     outputArtifact := outputArtifact a |}.

Definition with_outputArtifact (o : option Artifact) (a : Action) : Action :=
  {| actionName := actionName a; category := category a; provider := provider a;
     artifactBounds := artifactBounds a; configuration := configuration a;
     _inputArtifacts := _inputArtifacts a; _outputArtifacts := _outputArtifacts a;
     outputArtifact := o |}.

End codepipeline.

Import codepipeline.

(** [ProjectRef] of [./project]: the three members the source reads. *)
Record ProjectRef := {
  projectName : string;
  projectArn : string;
  projectRole : iam.Role
}.

(** [PipelineBuildActionProps] and [PipelineTestActionProps] declare the same
    members; one record serves both constructors. *)
Record PipelineActionProps := {
  stage : IStage;
  project : ProjectRef;
  inputArtifact : option Artifact;
  outputArtifactName : option string;
  additionalInputArtifacts : option (list Artifact);
  additionalOutputArtifactNames : option (list string)
}.

(** ** Effects *)

(** What a construction can throw. *)
Inductive Exception :=
| Error (message : string)      (* [throw new Error(message)] *)
| TypeError                     (* reading a property of [undefined] *)
| BoundsViolation.              (* an artifact count outside the provider's bounds *)

Inductive Result (A : Type) :=
| Ok (a : A)
| Throw (e : Exception).
Arguments Ok {A} a.
Arguments Throw {A} e.

(** Every mutating call the constructors make, in the order made: calls on
    the pipeline role, on the pipeline (bucket grants) and on the action under
    construction. *)
Inductive Event :=
| AddToPolicy (r : iam.Role) (s : iam.PolicyStatement)
| GrantBucketRead (r : iam.Role)
| GrantBucketReadWrite (r : iam.Role)
| AddInputArtifact (a : Artifact)
| AddOutputArtifact (a : Artifact).

#[global] Instance Event_eq_dec : EqDecision Event.
Proof. solve_decision. Defined.

Record State := {
  this : Action;
  trace : list Event
}.

Definition M (A : Type) : Type := State → State * Result A.

#[global] Instance M_ret : MRet M := λ A a st, (st, Ok a).

#[global] Instance M_bind : MBind M := λ A B f m st,
  match m st with
  | (st', Ok a) => f a st'
  | (st', Throw e) => (st', Throw e)
  end.

Definition throw {A : Type} (e : Exception) : M A := λ st, (st, Throw e).

Definition getThis : M Action := λ st, (st, Ok (this st)).

Definition modifyThis (f : Action → Action) : M unit :=
  λ st, ({| this := f (this st); trace := trace st |}, Ok tt).

Definition emit (e : Event) : M unit :=
  λ st, ({| this := this st; trace := trace st ++ [e] |}, Ok tt).

(** [for (const x of l) { body(x); }] *)
Fixpoint forEach {A : Type} (l : list A) (body : A → M unit) : M unit :=
  match l with
  | [] => mret tt
  | x :: l' => body x ;; forEach l' body
  end.

(** JavaScript truthiness of an optional string: [!!s]. *)
Definition truthy (s : option string) : bool :=
  match s with
  | Some EmptyString => false
  | Some _ => true
  | None => false
  end.

(** ** The base classes [codepipeline.Action], [BuildAction], [TestAction] *)

(** Modelled from the spec: [Action.addInputArtifact] of the base class (package
    aws-codepipeline-api, not part of these sources).  The input list is
    ordered and grows at its end (spec 4.1, steps 1 and 2). *)
Definition addInputArtifact (artifact : Artifact) : M unit :=
  modifyThis (λ a, with_inputArtifacts (_inputArtifacts a ++ [artifact]) a) ;;
  emit (AddInputArtifact artifact).

(** Modelled from the spec: [Action.addOutputArtifact] of the base class.  It
    declares a new artifact of the given name, owned by this action, at the
    end of the output list (spec 4.1, step 3) and returns it. *)
Definition addOutputArtifact (artifactName : string) : M Artifact :=
  a ← getThis;
  let artifact := {| name := artifactName; producer := actionName a |} in
  modifyThis (with_outputArtifacts (_outputArtifacts a ++ [artifact])) ;;
  emit (AddOutputArtifact artifact) ;;
  mret artifact.

(** The object the [super(parent, name, {...})] call of both constructors
    starts from: provider [CodeBuild], the given bounds, a configuration
    holding [ProjectName] only, and no artifact yet. *)
Definition Action_init (id : string) (cat : ActionCategory)
    (bounds : ActionArtifactBounds) (props : PipelineActionProps) : Action :=
  {| actionName := id;
     category := cat;
     provider := "CodeBuild";
     artifactBounds := bounds;
     configuration := {[ "ProjectName" := projectName (project props) ]};
     _inputArtifacts := [];
     _outputArtifacts := [];
     outputArtifact := None |}.

(** Modelled from the spec: the constructor of [codepipeline.BuildAction].
    The input list starts with the primary input, or with the artifact the
    stage supplies when none is given (spec 4.1, step 1); the output list
    always has a primary output at index 0 (spec 4.3), under the given name or
    a generated one. *)
Definition BuildAction_super (props : PipelineActionProps) : M unit :=
  addInputArtifact (default (upstreamArtifact (stage props)) (inputArtifact props)) ;;
  a ← getThis;
  out ← addOutputArtifact
          (default (generateOutputArtifactName (stage props) (actionName a))
                   (outputArtifactName props));
  modifyThis (with_outputArtifact (Some out)).

(** Modelled from the spec: the constructor of [codepipeline.TestAction].
    As for a build action, but the primary output exists only if a name for
    it is supplied (spec 4.1, step 3; the doc comment of
    [CommonPipelineTestActionProps.outputArtifactName]). *)
Definition TestAction_super (props : PipelineActionProps) : M unit :=
  addInputArtifact (default (upstreamArtifact (stage props)) (inputArtifact props)) ;;
  match outputArtifactName props with
  | Some n =>
      out ← addOutputArtifact n;
      modifyThis (with_outputArtifact (Some out))
  | None => mret tt
  end.

(** Modelled from the spec: the check of the final lists against the bounds
    (spec 4.1, step 4).  The checking code belongs to the base package. *)
Definition withinBounds (a : Action) : bool :=
  let b := artifactBounds a in
  bool_decide (minInputs b ≤ length (_inputArtifacts a) ≤ maxInputs b)%nat
  && bool_decide (minOutputs b ≤ length (_outputArtifacts a) ≤ maxOutputs b)%nat.

(** Modelled from the spec: a count outside the bounds is a fatal
    BoundsViolation (spec 7). *)
Definition validateArtifactBounds : M unit :=
  a ← getThis;
  if withinBounds a then mret tt else throw BoundsViolation.

(** ** [pipeline-actions.ts]: the helpers *)

Definition setCodeBuildNeededPermissions (stage : IStage) (project : ProjectRef)
    (needsPipelineBucketWrite : bool) : M unit :=
  (* grant the Pipeline role the required permissions to this Project *)
  emit (AddToPolicy (role (pipeline stage))
          (iam.addActions
             ["codebuild:BatchGetBuilds"; "codebuild:StartBuild"; "codebuild:StopBuild"]
             (iam.addResource (projectArn project) iam.newPolicyStatement))) ;;
  (* allow the Project access to the Pipeline's artifact Bucket *)
  if needsPipelineBucketWrite
  then emit (GrantBucketReadWrite (projectRole project))
  else emit (GrantBucketRead (projectRole project)).

(** The [action] argument of the source is the object under construction,
    [this] of the state; the two function arguments are the closures over its
    protected mutators. *)
Definition handleAdditionalInputOutputArtifacts (props : PipelineActionProps)
    (addInputArtifact : Artifact → M unit)
    (addOutputArtifact : string → M unit) : M unit :=
  (if bool_decide (0 < length (default [] (additionalInputArtifacts props)))%nat
   then
     (* we have to set the primary source in the configuration *)
     action ← getThis;
     first ← match _inputArtifacts action !! 0 with
             | Some artifact => mret artifact
             | None => throw TypeError
             end;
     modifyThis (λ a, with_configuration
                        (<[ "PrimarySource" := name first ]> (configuration a)) a) ;;
     (* add the additional artifacts *)
     forEach (default [] (additionalInputArtifacts props)) addInputArtifact
   else mret tt) ;;
  forEach (default [] (additionalOutputArtifactNames props)) addOutputArtifact.

Definition notFoundMessage (n : string) : string :=
  "Could not find output artifact with name '" +:+ n +:+ "'".

Definition findOutputArtifact (artifacts : list Artifact) (n : string) : Result Artifact :=
  match List.find (λ artifact, bool_decide (name artifact = n)) artifacts with
  | Some ret => Ok ret
  | None => Throw (Error (notFoundMessage n))
  end.

(** ** [pipeline-actions.ts]: the two actions *)

(** Running a constructor body on a fresh object: the caller gets the object
    if the body returns, the exception if it throws, and in both cases the
    calls made so far. *)
Definition instantiate (init : Action) (body : M unit) (t : list Event)
    : list Event * Result Action :=
  match body {| this := init; trace := t |} with
  | (st, Ok _) => (trace st, Ok (this st))
  | (st, Throw e) => (trace st, Throw e)
  end.

Module PipelineBuildAction.

Definition bounds : ActionArtifactBounds :=
  {| minInputs := 1; maxInputs := 5; minOutputs := 0; maxOutputs := 5 |}.

Definition body (props : PipelineActionProps) : M unit :=
  BuildAction_super props ;;
  setCodeBuildNeededPermissions (stage props) (project props) true ;;
  handleAdditionalInputOutputArtifacts props
    (* pass functions to get around protected members *)
    (λ artifact, addInputArtifact artifact)
    (λ artifactName, addOutputArtifact artifactName ;; mret tt).

(** [new PipelineBuildAction(parent, id, props)] *)
Definition new (id : string) (props : PipelineActionProps) (t : list Event)
    : list Event * Result Action :=
  instantiate (Action_init id Build bounds props) (body props) t.

(** Modelled from the spec: construction followed by the bounds check of the
    finalized lists (spec 4.1, step 4). *)
Definition construct (id : string) (props : PipelineActionProps) (t : list Event)
    : list Event * Result Action :=
  instantiate (Action_init id Build bounds props)
    (body props ;; validateArtifactBounds) t.

Definition additionalOutputArtifacts (a : Action) : list Artifact :=
  drop 1 (_outputArtifacts a).

Definition additionalOutputArtifact (a : Action) (n : string) : Result Artifact :=
  findOutputArtifact (additionalOutputArtifacts a) n.

End PipelineBuildAction.

Module PipelineTestAction.

Definition bounds : ActionArtifactBounds :=
  {| minInputs := 1; maxInputs := 5; minOutputs := 0; maxOutputs := 5 |}.

Definition body (props : PipelineActionProps) : M unit :=
  TestAction_super props ;;
  (* the Action needs write permissions only if it's producing an output artifact *)
  setCodeBuildNeededPermissions (stage props) (project props)
    (truthy (outputArtifactName props)) ;;
  handleAdditionalInputOutputArtifacts props
    (* pass functions to get around protected members *)
    (λ artifact, addInputArtifact artifact)
    (λ artifactName, addOutputArtifact artifactName ;; mret tt).

(** [new PipelineTestAction(parent, id, props)] *)
Definition new (id : string) (props : PipelineActionProps) (t : list Event)
    : list Event * Result Action :=
  instantiate (Action_init id Test bounds props) (body props) t.

(** Modelled from the spec: construction followed by the bounds check of the
    finalized lists (spec 4.1, step 4). *)
Definition construct (id : string) (props : PipelineActionProps) (t : list Event)
    : list Event * Result Action :=
  instantiate (Action_init id Test bounds props)
    (body props ;; validateArtifactBounds) t.

Definition additionalOutputArtifacts (a : Action) : list Artifact :=
  match outputArtifact a with
  | None => _outputArtifacts a
  | Some _ => drop 1 (_outputArtifacts a)
  end.

Definition additionalOutputArtifact (a : Action) (n : string) : Result Artifact :=
  findOutputArtifact (additionalOutputArtifacts a) n.

End PipelineTestAction.

(** ** Observations on traces and on constructed actions *)

(** The [addToPolicy] calls of a trace, in the order made: the role each was
    made on and the statement it was given.  What a bucket grant in turn does
    to the policy of the role it is given is decided by the pipeline, and is
    not part of this observation. *)
Definition addToPolicyCalls (t : list Event) : list (iam.Role * iam.PolicyStatement) :=
  omap (λ e, match e with
             | AddToPolicy r s => Some (r, s)
             | _ => None
             end) t.

Definition isGrant (e : Event) : bool :=
  match e with
  | AddToPolicy _ _ | GrantBucketRead _ | GrantBucketReadWrite _ => true
  | AddInputArtifact _ | AddOutputArtifact _ => false
  end.

Definition isBinding (e : Event) : bool := negb (isGrant e).

(** The ordering the specification asks for: in a trace, no artifact is bound
    once a permission has been granted. *)
Definition bindingBeforeGrants (t : list Event) : Prop :=
  ∀ i j g b, t !! i = Some g → isGrant g = true →
             t !! j = Some b → isBinding b = true → (j < i)%nat.

(** The statement [setCodeBuildNeededPermissions] builds for a project. *)
Definition controlStatement (arn : string) : iam.PolicyStatement :=
  {| iam.resources := [arn];
     iam.actions := ["codebuild:BatchGetBuilds"; "codebuild:StartBuild";
                     "codebuild:StopBuild"] |}.

(** The artifacts an action named [id] declares for a list of names. *)
Definition declared (id : string) (names : list string) : list Artifact :=
  (λ n, {| name := n; producer := id |}) <$> names.

Definition primaryInput (props : PipelineActionProps) : Artifact :=
  default (upstreamArtifact (stage props)) (inputArtifact props).

Definition additionalInputs (props : PipelineActionProps) : list Artifact :=
  default [] (additionalInputArtifacts props).

Definition additionalOutputs (id : string) (props : PipelineActionProps) : list Artifact :=
  declared id (default [] (additionalOutputArtifactNames props)).

(** The calls [handleAdditionalInputOutputArtifacts] makes on the action. *)
Definition additionalEvents (id : string) (props : PipelineActionProps) : list Event :=
  (AddInputArtifact <$> additionalInputs props)
  ++ (AddOutputArtifact <$> additionalOutputs id props).

(** What [handleAdditionalInputOutputArtifacts] leaves of an action that has
    a first input. *)
Definition bindAdditional (props : PipelineActionProps) (a : Action) : Action :=
  with_outputArtifacts (_outputArtifacts a ++ additionalOutputs (actionName a) props)
    (with_inputArtifacts (_inputArtifacts a ++ additionalInputs props)
       (match additionalInputs props, _inputArtifacts a with
        | _ :: _, first :: _ =>
            with_configuration (<[ "PrimarySource" := name first ]> (configuration a)) a
        | _, _ => a
        end)).

(** The primary output of a build action. *)
Definition buildOutput (id : string) (props : PipelineActionProps) : Artifact :=
  {| name := default (generateOutputArtifactName (stage props) id) (outputArtifactName props);
     producer := id |}.

(** The action as the base constructors leave it. *)
Definition buildBase (id : string) (props : PipelineActionProps) : Action :=
  with_outputArtifact (Some (buildOutput id props))
    (with_outputArtifacts [buildOutput id props]
       (with_inputArtifacts [primaryInput props]
          (Action_init id Build PipelineBuildAction.bounds props))).

Definition testBase (id : string) (props : PipelineActionProps) : Action :=
  match outputArtifactName props with
  | Some n =>
      with_outputArtifact (Some {| name := n; producer := id |})
        (with_outputArtifacts [{| name := n; producer := id |}]
           (with_inputArtifacts [primaryInput props]
              (Action_init id Test PipelineTestAction.bounds props)))
  | None =>
      with_inputArtifacts [primaryInput props]
        (Action_init id Test PipelineTestAction.bounds props)
  end.

(** The two permission calls of a construction. *)
Definition grantEvents (props : PipelineActionProps) (needsWrite : bool) : list Event :=
  [ AddToPolicy (role (pipeline (stage props)))
      (controlStatement (projectArn (project props)));
    if needsWrite then GrantBucketReadWrite (projectRole (project props))
    else GrantBucketRead (projectRole (project props)) ].

Definition buildBaseEvents (id : string) (props : PipelineActionProps) : list Event :=
  [ AddInputArtifact (primaryInput props); AddOutputArtifact (buildOutput id props) ].

Definition testBaseEvents (id : string) (props : PipelineActionProps) : list Event :=
  AddInputArtifact (primaryInput props)
  :: match outputArtifactName props with
     | Some n => [ AddOutputArtifact {| name := n; producer := id |} ]
     | None => []
     end.

(** Both constructors, by category. *)
Definition newAction (c : ActionCategory) :
    string → PipelineActionProps → list Event → list Event * Result Action :=
  match c with
  | Build => PipelineBuildAction.new
  | Test => PipelineTestAction.new
  end.

Definition constructAction (c : ActionCategory) :
    string → PipelineActionProps → list Event → list Event * Result Action :=
  match c with
  | Build => PipelineBuildAction.construct
  | Test => PipelineTestAction.construct
  end.

(** Whether the construction grants the project role write access. *)
Definition needsWrite (c : ActionCategory) (props : PipelineActionProps) : bool :=
  match c with
  | Build => true
  | Test => truthy (outputArtifactName props)
  end.

Definition baseEvents (c : ActionCategory) (id : string) (props : PipelineActionProps)
    : list Event :=
  match c with
  | Build => buildBaseEvents id props
  | Test => testBaseEvents id props
  end.

Definition baseAction (c : ActionCategory) (id : string) (props : PipelineActionProps)
    : Action :=
  match c with
  | Build => buildBase id props
  | Test => testBase id props
  end.

(** ** Sample pipelines *)

Definition sampleStage : IStage :=
  {| pipeline := {| role := {| iam.roleName := "PipelineRole" |} |};
     upstreamArtifact := {| name := "SourceOutput"; producer := "Source" |};
     generateOutputArtifactName := λ id, "Artifact_" +:+ id |}.

Definition sampleProject : ProjectRef :=
  {| projectName := "MyProject";
     projectArn := "arn:aws:codebuild:us-east-1:123456789012:project/MyProject";
     projectRole := {| iam.roleName := "ProjectRole" |} |}.

Definition upstream (n : string) : Artifact := {| name := n; producer := "Source" |}.

(** One primary input, two additional inputs, one named output. *)
Definition propsTwoAdditional : PipelineActionProps :=
  {| stage := sampleStage; project := sampleProject;
     inputArtifact := Some (upstream "primary");
     outputArtifactName := Some "built";
     additionalInputArtifacts := Some [upstream "add1"; upstream "add2"];
     additionalOutputArtifactNames := None |}.

(** Outputs [built], [reports], [logs], the first one primary. *)
Definition propsThreeOutputs : PipelineActionProps :=
  {| stage := sampleStage; project := sampleProject;
     inputArtifact := None;
     outputArtifactName := Some "built";
     additionalInputArtifacts := None;
     additionalOutputArtifactNames := Some ["reports"; "logs"] |}.

(** No primary output name, one additional output. *)
Definition propsReportsOnly : PipelineActionProps :=
  {| stage := sampleStage; project := sampleProject;
     inputArtifact := None;
     outputArtifactName := None;
     additionalInputArtifacts := None;
     additionalOutputArtifactNames := Some ["reports"] |}.

(** Six additional inputs. *)
Definition propsSixAdditional : PipelineActionProps :=
  {| stage := sampleStage; project := sampleProject;
     inputArtifact := None;
     outputArtifactName := None;
     additionalInputArtifacts :=
       Some [upstream "a1"; upstream "a2"; upstream "a3";
             upstream "a4"; upstream "a5"; upstream "a6"];
     additionalOutputArtifactNames := None |}.

(** An action to which no input has been bound. *)
Definition unboundState : State :=
  {| this := Action_init "Build" Build PipelineBuildAction.bounds propsTwoAdditional;
     trace := [] |}.


(** The build action of [propsThreeOutputs]. *)
Definition builtThreeOutputs : Action :=
  bindAdditional propsThreeOutputs (buildBase "Build" propsThreeOutputs).

(** The calls of a trace that grant access to the pipeline's bucket. *)
Definition isBucketGrant (e : Event) : bool :=
  match e with
  | GrantBucketRead _ | GrantBucketReadWrite _ => true
  | AddToPolicy _ _ | AddInputArtifact _ | AddOutputArtifact _ => false
  end.

(** Where the search of [additionalOutputArtifact] starts in the output list
    of a test action. *)
Definition testSearchStart (a : Action) : nat :=
  match outputArtifact a with
  | None => 0
  | Some _ => 1
  end.

(** * Properties *)

(** ** The monad and the loops *)

Lemma bind_Ok {A B : Type} (m : M A) (f : A → M B) st st' a :
  m st = (st', Ok a) → (m ≫= f) st = f a st'.
Proof. intros H. unfold mbind, M_bind. by rewrite H. Qed.

Lemma bind_Throw {A B : Type} (m : M A) (f : A → M B) st st' e :
  m st = (st', Throw e) → (m ≫= f) st = (st', Throw e).
Proof. intros H. unfold mbind, M_bind. by rewrite H. Qed.

Lemma addInputArtifact_run artifact st :
  addInputArtifact artifact st
  = ({| this := with_inputArtifacts (_inputArtifacts (this st) ++ [artifact]) (this st);
        trace := trace st ++ [AddInputArtifact artifact] |}, Ok tt).
Proof. reflexivity. Qed.

Lemma addOutputArtifact_run n st :
  addOutputArtifact n st
  = ({| this := with_outputArtifacts
                  (_outputArtifacts (this st)
                   ++ [{| name := n; producer := actionName (this st) |}]) (this st);
        trace := trace st
                 ++ [AddOutputArtifact {| name := n; producer := actionName (this st) |}] |},
     Ok {| name := n; producer := actionName (this st) |}).
Proof. reflexivity. Qed.

Lemma with_inputArtifacts_id a : with_inputArtifacts (_inputArtifacts a) a = a.
Proof. by destruct a. Qed.

Lemma with_outputArtifacts_id a : with_outputArtifacts (_outputArtifacts a) a = a.
Proof. by destruct a. Qed.

(** The loop over the additional inputs appends them in list order. *)
Lemma forEach_addInputArtifact l st :
  forEach l (λ artifact, addInputArtifact artifact) st
  = ({| this := with_inputArtifacts (_inputArtifacts (this st) ++ l) (this st);
        trace := trace st ++ (AddInputArtifact <$> l) |}, Ok tt).
Proof.
  revert st. induction l as [|x l IH]; intros st.
  - cbn [forEach fmap list_fmap]. rewrite !app_nil_r, with_inputArtifacts_id.
    by destruct st.
  - cbn [forEach]. erewrite bind_Ok by apply addInputArtifact_run.
    rewrite IH. cbn. rewrite <- !app_assoc. reflexivity.
Qed.

(** The loop over the additional output names declares them in list order. *)
Lemma forEach_addOutputArtifact names st :
  forEach names (λ artifactName, addOutputArtifact artifactName ;; mret tt) st
  = ({| this := with_outputArtifacts
                  (_outputArtifacts (this st) ++ declared (actionName (this st)) names)
                  (this st);
        trace := trace st ++ (AddOutputArtifact <$> declared (actionName (this st)) names) |},
     Ok tt).
Proof.
  revert st. induction names as [|n names IH]; intros st.
  - cbn [forEach declared fmap list_fmap]. rewrite !app_nil_r, with_outputArtifacts_id.
    by destruct st.
  - cbn [forEach]. unfold mbind at 1, M_bind at 1.
    erewrite bind_Ok by apply addOutputArtifact_run.
    cbn [mret M_ret]. rewrite IH. cbn. rewrite <- !app_assoc. reflexivity.
Qed.

(** ** [handleAdditionalInputOutputArtifacts] *)

(** On an action that has a first input the helper returns, and leaves the
    action and the trace as [bindAdditional] and [additionalEvents] say. *)
Lemma handleAdditional_run props st first rest :
  _inputArtifacts (this st) = first :: rest →
  handleAdditionalInputOutputArtifacts props
    (λ artifact, addInputArtifact artifact)
    (λ artifactName, addOutputArtifact artifactName ;; mret tt) st
  = ({| this := bindAdditional props (this st);
        trace := trace st ++ additionalEvents (actionName (this st)) props |}, Ok tt).
Proof.
  intros Hin. unfold handleAdditionalInputOutputArtifacts, bindAdditional,
    additionalEvents, additionalInputs, additionalOutputs.
  destruct (default [] (additionalInputArtifacts props)) as [|x l] eqn:Hadd.
  - rewrite bool_decide_eq_false_2 by (cbn; lia).
    erewrite bind_Ok by reflexivity.
    rewrite forEach_addOutputArtifact. cbn [fmap list_fmap app].
    rewrite app_nil_r, with_inputArtifacts_id. reflexivity.
  - rewrite bool_decide_eq_true_2 by (cbn; lia).
    erewrite bind_Ok; cycle 1.
    { erewrite bind_Ok by reflexivity. rewrite Hin. cbn [lookup list_lookup].
      erewrite bind_Ok by reflexivity.
      erewrite bind_Ok by reflexivity.
      apply forEach_addInputArtifact. }
    rewrite forEach_addOutputArtifact. cbn [this trace].
    rewrite Hin. destruct st as [a t]. destruct a. cbn in *. subst.
    rewrite <- !app_assoc. reflexivity.
Qed.

(** With additional inputs but no input bound yet, reading the name of the
    first input throws, before anything is changed. *)
Lemma handleAdditional_no_input props addIn addOut st :
  _inputArtifacts (this st) = [] →
  additionalInputs props ≠ [] →
  handleAdditionalInputOutputArtifacts props addIn addOut st = (st, Throw TypeError).
Proof.
  intros Hin Hadd. unfold handleAdditionalInputOutputArtifacts.
  unfold additionalInputs in Hadd.
  destruct (default [] (additionalInputArtifacts props)) as [|x l]; [done|].
  rewrite bool_decide_eq_true_2 by (cbn; lia).
  erewrite bind_Throw; [reflexivity|].
  erewrite bind_Ok by reflexivity. rewrite Hin. reflexivity.
Qed.

(** ** The constructors *)

Lemma setCodeBuildNeededPermissions_run props needsWrite st :
  setCodeBuildNeededPermissions (stage props) (project props) needsWrite st
  = ({| this := this st; trace := trace st ++ grantEvents props needsWrite |}, Ok tt).
Proof.
  unfold setCodeBuildNeededPermissions, grantEvents.
  erewrite bind_Ok by reflexivity.
  destruct needsWrite; unfold emit; cbn [this trace]; rewrite <- app_assoc; reflexivity.
Qed.

Lemma BuildAction_super_run id props t :
  BuildAction_super props
    {| this := Action_init id Build PipelineBuildAction.bounds props; trace := t |}
  = ({| this := buildBase id props; trace := t ++ buildBaseEvents id props |}, Ok tt).
Proof.
  unfold BuildAction_super.
  erewrite bind_Ok by apply addInputArtifact_run.
  erewrite bind_Ok by reflexivity.
  erewrite bind_Ok by apply addOutputArtifact_run.
  unfold modifyThis. cbn [this trace]. rewrite <- app_assoc. reflexivity.
Qed.

Lemma TestAction_super_run id props t :
  TestAction_super props
    {| this := Action_init id Test PipelineTestAction.bounds props; trace := t |}
  = ({| this := testBase id props; trace := t ++ testBaseEvents id props |}, Ok tt).
Proof.
  unfold TestAction_super, testBase, testBaseEvents.
  erewrite bind_Ok by apply addInputArtifact_run.
  destruct (outputArtifactName props) as [n|]; [|reflexivity].
  erewrite bind_Ok by apply addOutputArtifact_run.
  unfold modifyThis. cbn [this trace]. rewrite <- app_assoc. reflexivity.
Qed.

Lemma buildBase_actionName id props : actionName (buildBase id props) = id.
Proof. reflexivity. Qed.

Lemma testBase_actionName id props : actionName (testBase id props) = id.
Proof. unfold testBase. by destruct (outputArtifactName props). Qed.

Lemma testBase_inputs id props : _inputArtifacts (testBase id props) = [primaryInput props].
Proof. unfold testBase. by destruct (outputArtifactName props). Qed.

(** The constructor body of a build action always returns: the base
    constructor binds the primary artifacts, then the permissions are
    granted, then the additional artifacts are bound. *)
Lemma PipelineBuildAction_body_run id props t :
  PipelineBuildAction.body props
    {| this := Action_init id Build PipelineBuildAction.bounds props; trace := t |}
  = ({| this := bindAdditional props (buildBase id props);
        trace := t ++ buildBaseEvents id props ++ grantEvents props true
                   ++ additionalEvents id props |}, Ok tt).
Proof.
  unfold PipelineBuildAction.body.
  erewrite bind_Ok by apply BuildAction_super_run.
  erewrite bind_Ok by apply setCodeBuildNeededPermissions_run.
  erewrite handleAdditional_run by reflexivity.
  cbn [this trace]. rewrite buildBase_actionName, <- !app_assoc. reflexivity.
Qed.

Lemma PipelineTestAction_body_run id props t :
  PipelineTestAction.body props
    {| this := Action_init id Test PipelineTestAction.bounds props; trace := t |}
  = ({| this := bindAdditional props (testBase id props);
        trace := t ++ testBaseEvents id props
                   ++ grantEvents props (truthy (outputArtifactName props))
                   ++ additionalEvents id props |}, Ok tt).
Proof.
  unfold PipelineTestAction.body.
  erewrite bind_Ok by apply TestAction_super_run.
  erewrite bind_Ok by apply setCodeBuildNeededPermissions_run.
  erewrite handleAdditional_run by apply testBase_inputs.
  cbn [this trace]. rewrite testBase_actionName, <- !app_assoc. reflexivity.
Qed.

Lemma PipelineBuildAction_new_run id props t :
  PipelineBuildAction.new id props t
  = (t ++ buildBaseEvents id props ++ grantEvents props true ++ additionalEvents id props,
     Ok (bindAdditional props (buildBase id props))).
Proof.
  unfold PipelineBuildAction.new, instantiate.
  by rewrite PipelineBuildAction_body_run.
Qed.

Lemma PipelineTestAction_new_run id props t :
  PipelineTestAction.new id props t
  = (t ++ testBaseEvents id props
       ++ grantEvents props (truthy (outputArtifactName props))
       ++ additionalEvents id props,
     Ok (bindAdditional props (testBase id props))).
Proof.
  unfold PipelineTestAction.new, instantiate.
  by rewrite PipelineTestAction_body_run.
Qed.

Lemma PipelineBuildAction_construct_run id props t :
  PipelineBuildAction.construct id props t
  = (t ++ buildBaseEvents id props ++ grantEvents props true ++ additionalEvents id props,
     if withinBounds (bindAdditional props (buildBase id props))
     then Ok (bindAdditional props (buildBase id props))
     else Throw BoundsViolation).
Proof.
  unfold PipelineBuildAction.construct, instantiate.
  erewrite bind_Ok by apply PipelineBuildAction_body_run.
  unfold validateArtifactBounds. erewrite bind_Ok by reflexivity.
  cbn [this]. by destruct (withinBounds _).
Qed.

Lemma PipelineTestAction_construct_run id props t :
  PipelineTestAction.construct id props t
  = (t ++ testBaseEvents id props
       ++ grantEvents props (truthy (outputArtifactName props))
       ++ additionalEvents id props,
     if withinBounds (bindAdditional props (testBase id props))
     then Ok (bindAdditional props (testBase id props))
     else Throw BoundsViolation).
Proof.
  unfold PipelineTestAction.construct, instantiate.
  erewrite bind_Ok by apply PipelineTestAction_body_run.
  unfold validateArtifactBounds. erewrite bind_Ok by reflexivity.
  cbn [this]. by destruct (withinBounds _).
Qed.

Lemma newAction_run c id props t :
  newAction c id props t
  = (t ++ baseEvents c id props ++ grantEvents props (needsWrite c props)
       ++ additionalEvents id props,
     Ok (bindAdditional props (baseAction c id props))).
Proof.
  destruct c; [apply PipelineBuildAction_new_run | apply PipelineTestAction_new_run].
Qed.

Lemma constructAction_run c id props t :
  constructAction c id props t
  = (t ++ baseEvents c id props ++ grantEvents props (needsWrite c props)
       ++ additionalEvents id props,
     if withinBounds (bindAdditional props (baseAction c id props))
     then Ok (bindAdditional props (baseAction c id props))
     else Throw BoundsViolation).
Proof.
  destruct c;
    [apply PipelineBuildAction_construct_run | apply PipelineTestAction_construct_run].
Qed.

(** The lists of a constructed action. *)
Lemma baseAction_inputs c id props :
  _inputArtifacts (baseAction c id props) = [primaryInput props].
Proof. destruct c; [reflexivity | apply testBase_inputs]. Qed.

Lemma baseAction_actionName c id props : actionName (baseAction c id props) = id.
Proof. destruct c; [reflexivity | apply testBase_actionName]. Qed.

Lemma baseAction_configuration c id props :
  configuration (baseAction c id props)
  = {[ "ProjectName" := projectName (project props) ]}.
Proof.
  destruct c; [reflexivity|]. cbn [baseAction]. unfold testBase.
  by destruct (outputArtifactName props).
Qed.

Lemma bindAdditional_inputs props a :
  _inputArtifacts (bindAdditional props a) = _inputArtifacts a ++ additionalInputs props.
Proof. reflexivity. Qed.

Lemma bindAdditional_outputs props a :
  _outputArtifacts (bindAdditional props a)
  = _outputArtifacts a ++ additionalOutputs (actionName a) props.
Proof. reflexivity. Qed.

Lemma bindAdditional_outputArtifact props a :
  outputArtifact (bindAdditional props a) = outputArtifact a.
Proof.
  unfold bindAdditional.
  destruct (additionalInputs props), (_inputArtifacts a); reflexivity.
Qed.

Lemma bindAdditional_actionName props a :
  actionName (bindAdditional props a) = actionName a.
Proof.
  unfold bindAdditional.
  destruct (additionalInputs props), (_inputArtifacts a); reflexivity.
Qed.

Lemma bindAdditional_configuration props a :
  configuration (bindAdditional props a)
  = match additionalInputs props, _inputArtifacts a with
    | _ :: _, first :: _ => <[ "PrimarySource" := name first ]> (configuration a)
    | _, _ => configuration a
    end.
Proof.
  unfold bindAdditional.
  destruct (additionalInputs props), (_inputArtifacts a); reflexivity.
Qed.

(** ** Artifact binding *)

(** C3: for every action construction (build or test), the resolved input
    list is the primary input followed by the additional inputs in
    declaration order; when there are additional inputs the configuration
    holds [PrimarySource], equal to the name of the first artifact of the
    resolved input list, and when there are none it holds no [PrimarySource]. *)
Theorem C3_primary_source c id props t :
  ∃ a t', newAction c id props t = (t', Ok a)
    ∧ _inputArtifacts a = primaryInput props :: additionalInputs props
    ∧ configuration a !! "PrimarySource"
      = match additionalInputs props with
        | [] => None
        | _ :: _ => name <$> (_inputArtifacts a !! 0)
        end.
Proof.
  rewrite newAction_run. eexists _, _. split; [reflexivity|].
  rewrite bindAdditional_inputs, bindAdditional_configuration, baseAction_inputs,
    baseAction_configuration.
  split; [reflexivity|].
  destruct (additionalInputs props) as [|x l].
  - by rewrite lookup_singleton_ne.
  - by rewrite lookup_insert_eq.
Qed.

(** C8: for every action construction, the finalized output list is the
    primary output, when there is one, at index 0, followed by the artifacts
    of the additional output names in declaration order.  A build action
    always has a primary output; a test action has one exactly when a name
    for it is supplied. *)
Theorem C8_output_order c id props t :
  ∃ a t', newAction c id props t = (t', Ok a)
    ∧ _outputArtifacts a = option_list (outputArtifact a) ++ additionalOutputs id props
    ∧ name <$> additionalOutputs id props = default [] (additionalOutputArtifactNames props)
    ∧ outputArtifact a
      = match c with
        | Build => Some (buildOutput id props)
        | Test => (λ n, {| name := n; producer := id |}) <$> outputArtifactName props
        end.
Proof.
  rewrite newAction_run. eexists _, _. split; [reflexivity|].
  rewrite bindAdditional_outputs, bindAdditional_outputArtifact, baseAction_actionName.
  split; [|split].
  - destruct c; [reflexivity|]. cbn [baseAction]. unfold testBase.
    by destruct (outputArtifactName props).
  - unfold additionalOutputs, declared. rewrite <- list_fmap_compose.
    apply list_fmap_id.
  - destruct c; [reflexivity|]. cbn [baseAction]. unfold testBase.
    by destruct (outputArtifactName props).
Qed.

(** ** Lookup of additional outputs *)

(** C6: the additional outputs of a build action are all outputs except
    index 0, and a constructed build action has its primary output there; the
    additional outputs of a test action are all outputs when no primary
    output was declared at construction and all but the first otherwise.  In
    both cases they are the artifacts of the additional output names. *)
Theorem C6_additional_outputs id props t :
  (∀ a, PipelineBuildAction.additionalOutputArtifacts a = drop 1 (_outputArtifacts a))
  ∧ (∀ a, PipelineTestAction.additionalOutputArtifacts a
          = match outputArtifact a with
            | None => _outputArtifacts a
            | Some _ => drop 1 (_outputArtifacts a)
            end)
  ∧ (∃ a t', PipelineBuildAction.new id props t = (t', Ok a)
       ∧ _outputArtifacts a !! 0 = Some (buildOutput id props)
       ∧ PipelineBuildAction.additionalOutputArtifacts a = additionalOutputs id props)
  ∧ (∃ a t', PipelineTestAction.new id props t = (t', Ok a)
       ∧ match outputArtifactName props with
         | None =>
             outputArtifact a = None
             ∧ PipelineTestAction.additionalOutputArtifacts a = _outputArtifacts a
         | Some n =>
             outputArtifact a = Some {| name := n; producer := id |}
             ∧ _outputArtifacts a !! 0 = Some {| name := n; producer := id |}
             ∧ PipelineTestAction.additionalOutputArtifacts a = drop 1 (_outputArtifacts a)
         end
       ∧ PipelineTestAction.additionalOutputArtifacts a = additionalOutputs id props).
Proof.
  split; [reflexivity|]. split; [reflexivity|]. split.
  - rewrite PipelineBuildAction_new_run. eexists _, _. split; [reflexivity|].
    unfold PipelineBuildAction.additionalOutputArtifacts.
    rewrite bindAdditional_outputs. split; reflexivity.
  - rewrite PipelineTestAction_new_run. eexists _, _. split; [reflexivity|].
    unfold PipelineTestAction.additionalOutputArtifacts.
    rewrite bindAdditional_outputs, bindAdditional_outputArtifact, testBase_actionName.
    unfold testBase. destruct (outputArtifactName props) as [n|]; cbn; done.
Qed.

(** The slicing of a test action is not a function of the length of the
    output list: two test actions with one output each, one sliced to nothing
    and one kept whole. *)
Example test_slicing_not_by_length :
  ∃ a1 a2 t1 t2,
    PipelineTestAction.new "Test" propsReportsOnly [] = (t1, Ok a1)
    ∧ PipelineTestAction.new "Test" propsTwoAdditional [] = (t2, Ok a2)
    ∧ length (_outputArtifacts a1) = length (_outputArtifacts a2)
    ∧ PipelineTestAction.additionalOutputArtifacts a1
      = [{| name := "reports"; producer := "Test" |}]
    ∧ PipelineTestAction.additionalOutputArtifacts a2 = [].
Proof.
  rewrite !PipelineTestAction_new_run. eexists _, _, _, _.
  split; [reflexivity|]. split; [reflexivity|]. by cbn.
Qed.

(** [Array.prototype.find] with the name test: the first artifact of that
    name, if the list has one. *)
Lemma find_by_name_Some (artifacts : list Artifact) n ret :
  List.find (λ artifact, bool_decide (name artifact = n)) artifacts = Some ret →
  ∃ i, artifacts !! i = Some ret ∧ name ret = n
       ∧ ∀ j a, (j < i)%nat → artifacts !! j = Some a → name a ≠ n.
Proof.
  induction artifacts as [|x l IH]; [done|]. cbn [List.find].
  case_bool_decide as Hx.
  - intros [= <-]. exists 0%nat. split; [done|]. split; [done|]. intros; lia.
  - intros Hl. destruct (IH Hl) as (i & Hi & Hn & Hfirst).
    exists (S i). split; [done|]. split; [done|].
    intros [|j] a Hj Ha; cbn in Ha.
    + by injection Ha as <-.
    + apply (Hfirst j); [lia | done].
Qed.

Lemma find_by_name_None (artifacts : list Artifact) n :
  List.find (λ artifact, bool_decide (name artifact = n)) artifacts = None →
  n ∉ name <$> artifacts.
Proof.
  induction artifacts as [|x l IH]; cbn [List.find fmap list_fmap].
  - intros _. apply not_elem_of_nil.
  - case_bool_decide as Hx; [done|]. intros Hl.
    apply not_elem_of_cons. split; [congruence | by apply IH].
Qed.

(** The message of the not-found error determines the name it was raised
    for. *)
Lemma append_quote_inj (n n' : string) : n +:+ "'" = n' +:+ "'" → n = n'.
Proof.
  revert n'. induction n as [|ch r IH]; intros [|ch' r']; cbn.
  - done.
  - intros [= _ H]. by destruct r'.
  - intros [= _ H]. by destruct r.
  - intros [= -> H]. f_equal. by apply IH.
Qed.

Lemma notFoundMessage_inj n n' : notFoundMessage n = notFoundMessage n' → n = n'.
Proof.
  unfold notFoundMessage. intros H.
  apply append_quote_inj. by simplify_eq/=.
Qed.

(** C5: [findOutputArtifact] compares names by equality of strings.  If the
    name is the name of some artifact of the list, the first artifact of that
    name is returned; if it is the name of none, in particular when the list
    is empty, the call throws an error whose message is built from the missing
    name and determines it. *)
Theorem C5_find_by_name (artifacts : list Artifact) (n : string) :
  ((n ∈ name <$> artifacts
    ∧ ∃ i ret, findOutputArtifact artifacts n = Ok ret
        ∧ artifacts !! i = Some ret ∧ name ret = n
        ∧ ∀ j a, (j < i)%nat → artifacts !! j = Some a → name a ≠ n)
   ∨ ((n ∉ name <$> artifacts)
      ∧ findOutputArtifact artifacts n = Throw (Error (notFoundMessage n))))
  ∧ findOutputArtifact [] n = Throw (Error (notFoundMessage n))
  ∧ notFoundMessage n = "Could not find output artifact with name '" +:+ n +:+ "'"
  ∧ ∀ n', notFoundMessage n = notFoundMessage n' → n = n'.
Proof.
  split; [|split; [reflexivity | split; [reflexivity | apply notFoundMessage_inj]]].
  unfold findOutputArtifact.
  destruct (List.find _ artifacts) as [ret|] eqn:Hfind.
  - left. destruct (find_by_name_Some _ _ _ Hfind) as (i & Hi & Hn & Hfirst).
    split; [|by exists i, ret].
    apply list_elem_of_fmap. exists ret. split; [done|].
    by eapply list_elem_of_lookup_2.
  - right. split; [by apply find_by_name_None | done].
Qed.

(** ** Permissions *)

Lemma addToPolicyCalls_app t1 t2 :
  addToPolicyCalls (t1 ++ t2) = addToPolicyCalls t1 ++ addToPolicyCalls t2.
Proof. apply omap_app. Qed.

Lemma addToPolicyCalls_bindings (t : list Event) :
  Forall (λ e, isBinding e = true) t → addToPolicyCalls t = [].
Proof.
  induction 1 as [|e t He _ IH]; [done|].
  destruct e; try discriminate; exact IH.
Qed.

Lemma baseEvents_bindings c id props :
  Forall (λ e, isBinding e = true) (baseEvents c id props).
Proof.
  destruct c; cbn; [by repeat constructor|].
  unfold testBaseEvents. destruct (outputArtifactName props); by repeat constructor.
Qed.

Lemma additionalEvents_bindings id props :
  Forall (λ e, isBinding e = true) (additionalEvents id props).
Proof.
  unfold additionalEvents. apply Forall_app. split; by apply Forall_fmap, Forall_true.
Qed.

Lemma addToPolicyCalls_grantEvents props w :
  addToPolicyCalls (grantEvents props w)
  = [(role (pipeline (stage props)), controlStatement (projectArn (project props)))].
Proof. unfold grantEvents. by destruct w. Qed.

Lemma addToPolicyCalls_construction c id props t w :
  addToPolicyCalls (t ++ baseEvents c id props ++ grantEvents props w
                      ++ additionalEvents id props)
  = addToPolicyCalls t
    ++ [(role (pipeline (stage props)), controlStatement (projectArn (project props)))].
Proof.
  rewrite !addToPolicyCalls_app, addToPolicyCalls_grantEvents.
  rewrite (addToPolicyCalls_bindings _ (baseEvents_bindings c id props)).
  rewrite (addToPolicyCalls_bindings _ (additionalEvents_bindings id props)).
  by rewrite app_nil_r.
Qed.

(** C7: every action construction, whether it ends in an action or in a
    bounds violation and whatever the write decision is, makes exactly one
    [addToPolicy] call, and makes it on the pipeline role: the statement
    appended is the three actions [codebuild:BatchGetBuilds],
    [codebuild:StartBuild], [codebuild:StopBuild] on the single resource that
    is the project's ARN.  The same holds of [setCodeBuildNeededPermissions]
    for both values of its flag. *)
Theorem C7_pipeline_role_statement c id props t :
  let statement :=
    {| iam.resources := [projectArn (project props)];
       iam.actions := ["codebuild:BatchGetBuilds"; "codebuild:StartBuild";
                       "codebuild:StopBuild"] |} in
  (∀ w st, ∃ st', setCodeBuildNeededPermissions (stage props) (project props) w st
                  = (st', Ok tt)
       ∧ addToPolicyCalls (trace st')
         = addToPolicyCalls (trace st) ++ [(role (pipeline (stage props)), statement)])
  ∧ (∃ r t', constructAction c id props t = (t', r)
       ∧ addToPolicyCalls t'
         = addToPolicyCalls t ++ [(role (pipeline (stage props)), statement)])
  ∧ (∃ a t', newAction c id props t = (t', Ok a)
       ∧ addToPolicyCalls t'
         = addToPolicyCalls t ++ [(role (pipeline (stage props)), statement)]).
Proof.
  intros statement. split; [|split].
  - intros w st. rewrite setCodeBuildNeededPermissions_run. eexists. split; [reflexivity|].
    cbn [trace]. by rewrite addToPolicyCalls_app, addToPolicyCalls_grantEvents.
  - rewrite constructAction_run. eexists _, _. split; [reflexivity|].
    apply addToPolicyCalls_construction.
  - rewrite newAction_run. eexists _, _. split; [reflexivity|].
    apply addToPolicyCalls_construction.
Qed.

(** The bucket grant of a construction is a single call, for reading and
    writing or for reading only, chosen by the flag the constructor passes:
    always set for a build action, set for a test action exactly when a
    non-empty primary output name is given. *)
Lemma project_role_grant c id props t :
  ∃ r t', constructAction c id props t = (t', r)
    ∧ filter (λ e, e = GrantBucketRead (projectRole (project props))
                   ∨ e = GrantBucketReadWrite (projectRole (project props)))
             (drop (length t) t')
      = [ if needsWrite c props
          then GrantBucketReadWrite (projectRole (project props))
          else GrantBucketRead (projectRole (project props)) ].
Proof.
  rewrite constructAction_run. eexists _, _. split; [reflexivity|].
  rewrite drop_app_length, !filter_app.
  assert (Hb : ∀ l : list Event, Forall (λ e, isBinding e = true) l →
    filter (λ e, e = GrantBucketRead (projectRole (project props))
                 ∨ e = GrantBucketReadWrite (projectRole (project props))) l = []).
  { induction 1 as [|e l He _ IH]; [done|].
    rewrite filter_cons_False; [done|]. intros [-> | ->]; discriminate. }
  rewrite (Hb _ (baseEvents_bindings c id props)).
  rewrite (Hb _ (additionalEvents_bindings id props)).
  unfold grantEvents. rewrite filter_cons_False by (intros [?|?]; discriminate).
  rewrite filter_cons_True by (destruct (needsWrite c props); auto).
  by rewrite filter_nil, app_nil_r.
Qed.

(** C2: a test action constructed without a primary output name and with
    the additional output name [reports] declares the output artifact
    [reports], yet its project role is granted read access only: the
    read-write grant is not made. *)
Theorem C2_test_additional_output_read_only :
  ∃ a t', PipelineTestAction.construct "Test" propsReportsOnly [] = (t', Ok a)
    ∧ _outputArtifacts a = [{| name := "reports"; producer := "Test" |}]
    ∧ outputArtifactName propsReportsOnly = None
    ∧ GrantBucketRead (projectRole sampleProject) ∈ t'
    ∧ GrantBucketReadWrite (projectRole sampleProject) ∉ t'.
Proof.
  rewrite PipelineTestAction_construct_run. eexists _, _.
  split; [reflexivity|]. split; [reflexivity|]. split; [reflexivity|].
  cbn. split.
  - do 2 apply list_elem_of_further. apply list_elem_of_here.
  - intros H. repeat (apply elem_of_cons in H as [H|H]; [discriminate H|]).
    by apply elem_of_nil in H.
Qed.

(** ** Bounds *)

Lemma withinBounds_true a :
  withinBounds a = true ↔
  (minInputs (artifactBounds a) ≤ length (_inputArtifacts a) ≤ maxInputs (artifactBounds a)
   ∧ minOutputs (artifactBounds a) ≤ length (_outputArtifacts a)
     ≤ maxOutputs (artifactBounds a))%nat.
Proof.
  unfold withinBounds. rewrite andb_true_iff, !bool_decide_eq_true. reflexivity.
Qed.

Lemma artifactBounds_constructed c id props :
  artifactBounds (bindAdditional props (baseAction c id props))
  = {| minInputs := 1; maxInputs := 5; minOutputs := 0; maxOutputs := 5 |}.
Proof.
  unfold bindAdditional.
  destruct (additionalInputs props), (_inputArtifacts (baseAction c id props)),
    c; cbn; try reflexivity;
    unfold testBase; by destruct (outputArtifactName props).
Qed.

(** C4: the check of an action against its bounds, whatever they are,
    passes exactly when the number of inputs lies between [minInputs] and
    [maxInputs] and the number of outputs between [minOutputs] and
    [maxOutputs], and throws [BoundsViolation] otherwise.  A construction
    (build or test, bounds 1 to 5 inputs and 0 to 5 outputs) yields its action
    exactly when both resolved counts lie within these bounds and ends in
    [BoundsViolation] otherwise. *)
Theorem C4_bounds_check c id props t :
  (∀ st,
     let a := this st in
     let b := artifactBounds a in
     ((minInputs b ≤ length (_inputArtifacts a) ≤ maxInputs b
       ∧ minOutputs b ≤ length (_outputArtifacts a) ≤ maxOutputs b)%nat
      ∧ validateArtifactBounds st = (st, Ok tt))
     ∨ (¬ (minInputs b ≤ length (_inputArtifacts a) ≤ maxInputs b
           ∧ minOutputs b ≤ length (_outputArtifacts a) ≤ maxOutputs b)%nat
        ∧ validateArtifactBounds st = (st, Throw BoundsViolation)))
  ∧ ∃ a t', newAction c id props t = (t', Ok a)
      ∧ artifactBounds a
        = {| minInputs := 1; maxInputs := 5; minOutputs := 0; maxOutputs := 5 |}
      ∧ (((1 ≤ length (_inputArtifacts a) ≤ 5
           ∧ 0 ≤ length (_outputArtifacts a) ≤ 5)%nat
          ∧ constructAction c id props t = (t', Ok a))
         ∨ (¬ (1 ≤ length (_inputArtifacts a) ≤ 5
               ∧ 0 ≤ length (_outputArtifacts a) ≤ 5)%nat
            ∧ constructAction c id props t = (t', Throw BoundsViolation))).
Proof.
  split.
  - intros st a b. unfold validateArtifactBounds.
    erewrite bind_Ok by reflexivity. fold a.
    destruct (withinBounds a) eqn:Hw.
    + left. split; [by apply withinBounds_true | done].
    + right. split; [|done]. intros Hin. apply withinBounds_true in Hin. congruence.
  - rewrite newAction_run, constructAction_run. eexists _, _.
    split; [reflexivity|]. split; [apply artifactBounds_constructed|].
    pose proof (withinBounds_true (bindAdditional props (baseAction c id props))) as Hw.
    rewrite artifactBounds_constructed in Hw. cbn [minInputs maxInputs minOutputs maxOutputs] in Hw.
    destruct (withinBounds _).
    + left. split; [by apply Hw | done].
    + right. split; [|done]. intros Hin. apply Hw in Hin. congruence.
Qed.

(** ** The first input and the primary source *)

(** C9: when there are additional inputs, [handleAdditionalInputOutputArtifacts]
    reads the name of the input at index 0 of the action.  If the action has
    an input there, the helper returns and [PrimarySource] is that name; if no
    input is bound yet, the read is out of range and the helper throws,
    leaving the action untouched. *)
Theorem C9_first_input_required props st :
  additionalInputs props ≠ [] →
  match _inputArtifacts (this st) !! 0 with
  | Some first =>
      ∃ st', handleAdditionalInputOutputArtifacts props
               (λ artifact, addInputArtifact artifact)
               (λ artifactName, addOutputArtifact artifactName ;; mret tt) st
             = (st', Ok tt)
        ∧ configuration (this st') !! "PrimarySource" = Some (name first)
  | None =>
      _inputArtifacts (this st) = []
      ∧ handleAdditionalInputOutputArtifacts props
          (λ artifact, addInputArtifact artifact)
          (λ artifactName, addOutputArtifact artifactName ;; mret tt) st
        = (st, Throw TypeError)
  end.
Proof.
  intros Hadd. destruct (_inputArtifacts (this st)) as [|first rest] eqn:Hin; cbn.
  - split; [done|]. by apply handleAdditional_no_input.
  - erewrite handleAdditional_run by exact Hin. eexists. split; [reflexivity|].
    cbn [this]. rewrite bindAdditional_configuration, Hin.
    destruct (additionalInputs props); [done|]. apply lookup_insert_eq.
Qed.

Lemma C9_first_input_required_witness :
  additionalInputs propsTwoAdditional ≠ []
  ∧ _inputArtifacts (this unboundState) = []
  ∧ handleAdditionalInputOutputArtifacts propsTwoAdditional
      (λ artifact, addInputArtifact artifact)
      (λ artifactName, addOutputArtifact artifactName ;; mret tt) unboundState
    = (unboundState, Throw TypeError).
Proof.
  split; [discriminate|].
  exact (C9_first_input_required propsTwoAdditional unboundState
           ltac:(discriminate)).
Defined.

(** ** The primary output is not an additional output *)

Lemma findOutputArtifact_absent (artifacts : list Artifact) n :
  n ∉ name <$> artifacts →
  findOutputArtifact artifacts n = Throw (Error (notFoundMessage n)).
Proof.
  intros Hn. unfold findOutputArtifact.
  destruct (List.find _ artifacts) as [ret|] eqn:Hfind; [|done].
  destruct (find_by_name_Some _ _ _ Hfind) as (i & Hi & Hname & _).
  destruct Hn. apply list_elem_of_fmap. exists ret. split; [done|].
  by eapply list_elem_of_lookup_2.
Qed.

Lemma declared_names id names : name <$> declared id names = names.
Proof.
  unfold declared. rewrite <- list_fmap_compose. apply list_fmap_id.
Qed.

Lemma findOutputArtifact_declared id names n :
  n ∈ names →
  findOutputArtifact (declared id names) n = Ok {| name := n; producer := id |}.
Proof.
  unfold findOutputArtifact. induction names as [|m names IH]; intros Hin.
  - by apply elem_of_nil in Hin.
  - cbn [declared fmap list_fmap List.find name]. case_bool_decide as Hm.
    + by rewrite Hm.
    + apply elem_of_cons in Hin as [->|Hin]; [done|]. by apply IH.
Qed.

Lemma findOutputArtifact_declared_decide id names n :
  findOutputArtifact (declared id names) n
  = if decide (n ∈ names)
    then Ok {| name := n; producer := id |}
    else Throw (Error (notFoundMessage n)).
Proof.
  case_decide as Hin; [by apply findOutputArtifact_declared|].
  apply findOutputArtifact_absent. by rewrite declared_names.
Qed.

Lemma findOutputArtifact_drop (k : nat) (l : list Artifact) n :
  match findOutputArtifact (drop k l) n with
  | Ok ret => ∃ i, l !! (k + i)%nat = Some ret ∧ name ret = n
  | Throw e =>
      e = Error (notFoundMessage n)
      ∧ ∀ i ret, l !! (k + i)%nat = Some ret → name ret ≠ n
  end.
Proof.
  unfold findOutputArtifact.
  destruct (List.find _ (drop k l)) as [ret|] eqn:Hfind.
  - destruct (find_by_name_Some _ _ _ Hfind) as (i & Hi & Hn & _).
    exists i. by rewrite <- lookup_drop.
  - split; [done|]. intros i ret Hi Hn.
    apply find_by_name_None in Hfind. destruct Hfind.
    apply list_elem_of_fmap. exists ret. split; [done|].
    apply list_elem_of_lookup. exists i. by rewrite lookup_drop.
Qed.




(** ** The order of binding and granting *)

(** With six additional inputs the build action is refused for its bounds,
    but both permission calls have been made by then, and they precede the
    binding of the additional inputs in the trace. *)
Lemma C1_grants_precede_additional_binding :
  ¬ bindingBeforeGrants (PipelineBuildAction.construct "Build" propsSixAdditional []).1
  ∧ ∃ t', PipelineBuildAction.construct "Build" propsSixAdditional []
          = (t', Throw BoundsViolation)
      ∧ AddToPolicy (role (pipeline sampleStage))
          (controlStatement (projectArn sampleProject)) ∈ t'
      ∧ GrantBucketReadWrite (projectRole sampleProject) ∈ t'.
Proof.
  rewrite PipelineBuildAction_construct_run. split.
  - intros H.
    pose proof (H 2%nat 4%nat _ _ eq_refl eq_refl eq_refl eq_refl) as Hlt. lia.
  - eexists. split; [reflexivity|]. cbn. split.
    + do 2 apply list_elem_of_further. apply list_elem_of_here.
    + do 3 apply list_elem_of_further. apply list_elem_of_here.
Qed.

Lemma grantEvents_grants props w : Forall (λ e, isGrant e = true) (grantEvents props w).
Proof. unfold grantEvents. destruct w; by repeat constructor. Qed.

(** C1, as the code has it: every action construction (build or test) makes
    its calls in three groups.  First the base constructor binds the primary
    input and the primary output, if any; then the pipeline-role statement
    and the project-role bucket grant are issued; only then the additional
    inputs and the additional outputs are appended, in declaration order, and
    the list lengths are checked after that.  In particular a construction
    with six additional inputs ends in [BoundsViolation] with both grants
    already in the trace. *)
Theorem C1_grants_after_primary_binding c id props t :
  ∃ r t', constructAction c id props t = (t', r)
    ∧ t' = t ++ baseEvents c id props
             ++ grantEvents props (needsWrite c props)
             ++ additionalEvents id props
    ∧ Forall (λ e, isBinding e = true) (baseEvents c id props)
    ∧ Forall (λ e, isGrant e = true) (grantEvents props (needsWrite c props))
    ∧ length (grantEvents props (needsWrite c props)) = 2%nat
    ∧ additionalEvents id props
      = (AddInputArtifact <$> additionalInputs props)
        ++ (AddOutputArtifact <$> additionalOutputs id props)
    ∧ (length (additionalInputs props) = 6%nat → r = Throw BoundsViolation).
Proof.
  rewrite constructAction_run. eexists _, _. split; [reflexivity|].
  split; [reflexivity|]. split; [apply baseEvents_bindings|].
  split; [apply grantEvents_grants|]. split; [reflexivity|]. split; [reflexivity|].
  intros Hsix.
  destruct (withinBounds _) eqn:Hw; [|done].
  apply withinBounds_true in Hw as [[_ Hin] _].
  rewrite artifactBounds_constructed, bindAdditional_inputs, baseAction_inputs in Hin.
  cbn in Hin. lia.
Qed.

Lemma C1_grants_after_primary_binding_witness :
  ∃ t', constructAction Build "Build" propsSixAdditional [] = (t', Throw BoundsViolation)
    ∧ Forall (λ e, isGrant e = true) (take 2 (drop 2 t')).
Proof.
  destruct (C1_grants_after_primary_binding Build "Build" propsSixAdditional [])
    as (r & t' & Hrun & Ht' & _ & _ & _ & _ & Hsix).
  rewrite (Hsix eq_refl) in Hrun.
  exists t'. split; [exact Hrun|].
  rewrite Ht'. cbn. by repeat constructor.
Defined.

(** ** The scenarios of the specification *)

(** One input, no output: a test action reads the bucket and sets no
    primary source. *)
Example scenario_test_without_outputs :
  let props :=
    {| stage := sampleStage; project := sampleProject;
       inputArtifact := Some (upstream "A"); outputArtifactName := None;
       additionalInputArtifacts := None; additionalOutputArtifactNames := None |} in
  ∃ a t', PipelineTestAction.construct "Test" props [] = (t', Ok a)
    ∧ _inputArtifacts a = [upstream "A"]
    ∧ _outputArtifacts a = []
    ∧ configuration a !! "PrimarySource" = None
    ∧ t' = [ AddInputArtifact (upstream "A");
             AddToPolicy (role (pipeline sampleStage))
               (controlStatement (projectArn sampleProject));
             GrantBucketRead (projectRole sampleProject) ].
Proof.
  intros props. rewrite PipelineTestAction_construct_run. eexists _, _.
  split; [reflexivity|]. by vm_compute.
Qed.

(** A primary input, two additional inputs and the output [built]: a build
    action names the primary input as primary source and writes the bucket. *)
Example scenario_build_two_additional_inputs :
  ∃ a t', PipelineBuildAction.construct "Build" propsTwoAdditional [] = (t', Ok a)
    ∧ _inputArtifacts a = [upstream "primary"; upstream "add1"; upstream "add2"]
    ∧ name <$> _outputArtifacts a = ["built"]
    ∧ configuration a !! "PrimarySource" = Some "primary"
    ∧ configuration a !! "ProjectName" = Some "MyProject"
    ∧ GrantBucketReadWrite (projectRole sampleProject) ∈ t'.
Proof.
  rewrite PipelineBuildAction_construct_run. eexists _, _.
  split; [reflexivity|]. do 4 (split; [by vm_compute|]).
  cbn. do 3 apply list_elem_of_further. apply list_elem_of_here.
Qed.

(** Outputs [built], [reports], [logs] with [built] primary. *)
Example scenario_lookup_additional_outputs :
  name <$> PipelineBuildAction.additionalOutputArtifacts builtThreeOutputs
  = ["reports"; "logs"]
  ∧ PipelineBuildAction.additionalOutputArtifact builtThreeOutputs "reports"
    = Ok {| name := "reports"; producer := "Build" |}
  ∧ PipelineBuildAction.additionalOutputArtifact builtThreeOutputs "missing"
    = Throw (Error "Could not find output artifact with name 'missing'").
Proof. by vm_compute. Qed.

(** * Further properties of [pipeline-actions.ts] *)

(** ** [findOutputArtifact] on a list built by appending *)

Lemma find_by_name_app (l1 l2 : list Artifact) n :
  List.find (λ artifact, bool_decide (name artifact = n)) (l1 ++ l2)
  = match List.find (λ artifact, bool_decide (name artifact = n)) l1 with
    | Some ret => Some ret
    | None => List.find (λ artifact, bool_decide (name artifact = n)) l2
    end.
Proof.
  induction l1 as [|x l1 IH]; [done|]. cbn [app List.find].
  by case_bool_decide.
Qed.

(** X1: a lookup in two lists appended is the lookup in the first list if
    that one finds an artifact, and the lookup in the second list otherwise:
    artifacts declared earlier shadow later ones of the same name, and
    declaring further outputs never changes a lookup that succeeded. *)
Theorem X1_find_app (l1 l2 : list Artifact) (n : string) :
  findOutputArtifact (l1 ++ l2) n
  = match findOutputArtifact l1 n with
    | Ok ret => Ok ret
    | Throw _ => findOutputArtifact l2 n
    end.
Proof.
  unfold findOutputArtifact. rewrite find_by_name_app.
  by destruct (List.find _ l1).
Qed.

(** ** Looking up what a construction declared *)

(** X2: after a construction, [additionalOutputArtifact] finds exactly the
    names given in [additionalOutputArtifactNames]: for such a name it returns
    the artifact of that name declared by this action, for every other name,
    the name of the primary output included unless it is repeated among the
    additional names, it throws the not-found error.  This holds for the build
    action and for the test action, with or without a primary output. *)
Theorem X2_lookup_declared id props t (n : string) :
  (∃ a t', PipelineBuildAction.new id props t = (t', Ok a)
     ∧ PipelineBuildAction.additionalOutputArtifact a n
       = if decide (n ∈ default [] (additionalOutputArtifactNames props))
         then Ok {| name := n; producer := id |}
         else Throw (Error (notFoundMessage n)))
  ∧ (∃ a t', PipelineTestAction.new id props t = (t', Ok a)
       ∧ PipelineTestAction.additionalOutputArtifact a n
         = if decide (n ∈ default [] (additionalOutputArtifactNames props))
           then Ok {| name := n; producer := id |}
           else Throw (Error (notFoundMessage n))).
Proof.
  split.
  - rewrite PipelineBuildAction_new_run. eexists _, _. split; [reflexivity|].
    unfold PipelineBuildAction.additionalOutputArtifact,
      PipelineBuildAction.additionalOutputArtifacts.
    rewrite bindAdditional_outputs. cbn [buildBase with_outputArtifact
      with_outputArtifacts _outputArtifacts actionName Action_init app drop].
    apply findOutputArtifact_declared_decide.
  - rewrite PipelineTestAction_new_run. eexists _, _. split; [reflexivity|].
    unfold PipelineTestAction.additionalOutputArtifact,
      PipelineTestAction.additionalOutputArtifacts.
    rewrite bindAdditional_outputs, bindAdditional_outputArtifact, testBase_actionName.
    unfold testBase. destruct (outputArtifactName props) as [m|];
      cbn [with_outputArtifact with_outputArtifacts with_inputArtifacts
           _outputArtifacts outputArtifact Action_init app drop];
      apply findOutputArtifact_declared_decide.
Qed.

(** ** The slot of the primary output is never searched *)

(** X3: for any action, [additionalOutputArtifact] of a build action either
    returns an artifact of the given name that sits at an index of the output
    list greater than 0, or throws the not-found error, and then no output
    after index 0 has that name; the artifact at index 0 is never looked at.
    For a test action the same holds from index 1 when [outputArtifact] is
    set, and from index 0 when it is not. *)
Theorem X3_lookup_range (a : Action) (n : string) :
  match PipelineBuildAction.additionalOutputArtifact a n with
  | Ok ret => ∃ i, _outputArtifacts a !! S i = Some ret ∧ name ret = n
  | Throw e =>
      e = Error (notFoundMessage n)
      ∧ ∀ i ret, _outputArtifacts a !! S i = Some ret → name ret ≠ n
  end
  ∧ match PipelineTestAction.additionalOutputArtifact a n with
    | Ok ret =>
        ∃ i, _outputArtifacts a !! (testSearchStart a + i)%nat = Some ret ∧ name ret = n
    | Throw e =>
        e = Error (notFoundMessage n)
        ∧ ∀ i ret, _outputArtifacts a !! (testSearchStart a + i)%nat = Some ret →
                   name ret ≠ n
    end.
Proof.
  split.
  - exact (findOutputArtifact_drop 1 (_outputArtifacts a) n).
  - unfold PipelineTestAction.additionalOutputArtifact,
      PipelineTestAction.additionalOutputArtifacts, testSearchStart.
    destruct (outputArtifact a).
    + exact (findOutputArtifact_drop 1 (_outputArtifacts a) n).
    + exact (findOutputArtifact_drop 0 (_outputArtifacts a) n).
Qed.

(** ** Which bucket grant a construction makes *)

Lemma bucketGrants_bindings (l : list Event) :
  Forall (λ e, isBinding e = true) l →
  filter (λ e, isBucketGrant e = true) l = [].
Proof.
  induction 1 as [|e l He _ IH]; [done|].
  rewrite filter_cons_False; [done|]. by destruct e.
Qed.

(** X4: a construction makes exactly one bucket grant, to the project's
    role.  The build action always grants reading and writing.  The test
    action grants reading and writing when [outputArtifactName] is a non-empty
    string, and reading only when it is absent or the empty string, whatever
    [additionalOutputArtifactNames] holds. *)
Theorem X4_bucket_grant_choice c id props t :
  ∃ a t', newAction c id props t = (t', Ok a)
    ∧ filter (λ e, isBucketGrant e = true) (drop (length t) t')
      = [ match c, outputArtifactName props with
          | Build, _ => GrantBucketReadWrite (projectRole (project props))
          | Test, Some (String _ _) => GrantBucketReadWrite (projectRole (project props))
          | Test, Some EmptyString => GrantBucketRead (projectRole (project props))
          | Test, None => GrantBucketRead (projectRole (project props))
          end ].
Proof.
  rewrite newAction_run. eexists _, _. split; [reflexivity|].
  rewrite drop_app_length, !filter_app.
  rewrite (bucketGrants_bindings _ (baseEvents_bindings c id props)).
  rewrite (bucketGrants_bindings _ (additionalEvents_bindings id props)).
  rewrite app_nil_r. unfold grantEvents.
  rewrite filter_cons_False by done.
  destruct c; [done|]. cbn [needsWrite].
  by destruct (outputArtifactName props) as [[|ch n]|].
Qed.

(** ** The helper without additional inputs *)

(** X6: when [additionalInputArtifacts] is absent or empty, the helper never
    reads input 0: it returns on every action, also on one that has no input
    yet, leaves the inputs and the configuration as they are (no
    [PrimarySource] is written) and only declares the additional outputs at
    the end of the output list. *)
Theorem X6_no_additional_inputs props st :
  default [] (additionalInputArtifacts props) = [] →
  ∃ st', handleAdditionalInputOutputArtifacts props
           (λ artifact, addInputArtifact artifact)
           (λ artifactName, addOutputArtifact artifactName ;; mret tt) st
         = (st', Ok tt)
    ∧ _inputArtifacts (this st') = _inputArtifacts (this st)
    ∧ configuration (this st') = configuration (this st)
    ∧ _outputArtifacts (this st')
      = _outputArtifacts (this st)
        ++ declared (actionName (this st)) (default [] (additionalOutputArtifactNames props))
    ∧ trace st'
      = trace st
        ++ (AddOutputArtifact
              <$> declared (actionName (this st))
                    (default [] (additionalOutputArtifactNames props))).
Proof.
  intros Hnone. unfold handleAdditionalInputOutputArtifacts. rewrite Hnone.
  rewrite bool_decide_eq_false_2 by (cbn; lia).
  erewrite bind_Ok by reflexivity.
  rewrite forEach_addOutputArtifact. eexists. split; [reflexivity|]. done.
Qed.

Lemma X6_no_additional_inputs_witness :
  default [] (additionalInputArtifacts propsReportsOnly) = []
  ∧ _inputArtifacts (this unboundState) = []
  ∧ ∃ st', handleAdditionalInputOutputArtifacts propsReportsOnly
             (λ artifact, addInputArtifact artifact)
             (λ artifactName, addOutputArtifact artifactName ;; mret tt) unboundState
           = (st', Ok tt)
      ∧ _inputArtifacts (this st') = []
      ∧ name <$> _outputArtifacts (this st') = ["reports"].
Proof.
  split; [reflexivity|]. split; [reflexivity|].
  destruct (X6_no_additional_inputs propsReportsOnly unboundState eq_refl)
    as (st' & Hrun & Hin & _ & Hout & _).
  exists st'. split; [exact Hrun|]. split; [exact Hin|]. by rewrite Hout.
Defined.

(** ** The configuration of a constructed action *)

(** X7: the configuration of a constructed action holds [ProjectName], the
    name of the project, and nothing else, except that with additional inputs
    it also holds [PrimarySource], the name of the primary input; writing
    [PrimarySource] leaves [ProjectName] in place. *)
Theorem X7_configuration c id props t :
  ∃ a t', newAction c id props t = (t', Ok a)
    ∧ configuration a
      = match additionalInputs props with
        | [] => {[ "ProjectName" := projectName (project props) ]}
        | _ :: _ =>
            <[ "PrimarySource" := name (primaryInput props) ]>
              {[ "ProjectName" := projectName (project props) ]}
        end
    ∧ configuration a !! "ProjectName" = Some (projectName (project props))
    ∧ ∀ k, k ≠ "ProjectName" → k ≠ "PrimarySource" → configuration a !! k = None.
Proof.
  rewrite newAction_run. eexists _, _. split; [reflexivity|].
  rewrite bindAdditional_configuration, baseAction_inputs, baseAction_configuration.
  destruct (additionalInputs props) as [|x l].
  - split; [done|]. split; [apply lookup_singleton_eq|].
    intros k Hk _. by rewrite lookup_singleton_ne.
  - split; [done|]. split.
    + rewrite lookup_insert_ne by done. apply lookup_singleton_eq.
    + intros k Hk Hs. rewrite lookup_insert_ne by done. by rewrite lookup_singleton_ne.
Qed.
